(** * SignUpController: a shallow embedding of
      src/presentation/controllers/signup.ts

    The controller reads four properties of an untyped request body,
    calls two injected collaborators and answers with an HTTP-style
    response.  JavaScript exceptions, the collaborators' own state and the
    calls a jest spy would record are threaded through a small
    state-and-exception monad. *)

From Stdlib Require Import ZArith.
From stdpp Require Import gmap strings list.

Local Open Scope Z_scope.
Local Open Scope string_scope.
Local Open Scope list_scope.

(** ** JavaScript values held by a request body

    [httpRequest.body] is untyped in the source, so its properties are
    modelled as primitive JavaScript values.  Numbers are the
    integer-valued ones; [NaN] and objects are not represented. *)

Inductive JsValue : Type :=
  | JsUndefined
  | JsNull
  | JsBoolean (b : bool)
  | JsNumber (n : Z)
  | JsString (s : string).

(** ToBoolean: [!v] in the source is [negb (truthy v)]. *)
Definition truthy (v : JsValue) : bool :=
  match v with
  | JsUndefined => false
  | JsNull => false
  | JsBoolean b => b
  | JsNumber n => negb (Z.eqb n 0)
  | JsString s => negb (String.eqb s EmptyString)
  end.

(** [a === b] on primitives: same type and same value. *)
Definition strict_eq (a b : JsValue) : bool :=
  match a, b with
  | JsUndefined, JsUndefined => true
  | JsNull, JsNull => true
  | JsBoolean x, JsBoolean y => Bool.eqb x y
  | JsNumber x, JsNumber y => Z.eqb x y
  | JsString x, JsString y => String.eqb x y
  | _, _ => false
  end.

(** ** Protocols *)

(** A request carries a [body], which may be missing altogether
    ([None] is JavaScript's [undefined]); a body is an object used as a
    map from property names to values. *)
Record HttpRequest : Type := { body : option (gmap string JsValue) }.

(** Modelled from the spec: the error classes of [presentation/errors],
    which are imported by the controller but are not part of the sources
    at hand.  The spec describes the bodies as [{kind: "MissingParam",
    field}], [{kind: "InvalidParam", field}] and [{kind: "ServerError"}]. *)
Inductive AppError : Type :=
  | MissingParamError (paramName : string)
  | InvalidParamError (paramName : string)
  | ServerError.

(** The response record: [statusCode] and the response's [body]
    (projection [resBody], since [body] names the request's field). *)
Record HttpResponse : Type := { statusCode : Z; resBody : AppError }.

(** Modelled from the spec: the helpers of [presentation/helpers/http-helper],
    imported by the controller and absent from the sources at hand:
    400 with the error as body, and 500 with a [ServerError] body. *)
Definition badRequest (error : AppError) : HttpResponse :=
  {| statusCode := 400; resBody := error |}.

Definition serverError : HttpResponse :=
  {| statusCode := 500; resBody := ServerError |}.

(** The argument of [AddAccount.add]: the object literal
    [{ email, name, password }] of line 32. *)
Record AddAccountModel : Type :=
  { email : JsValue; name : JsValue; password : JsValue }.

(** What [AddAccount.add] returns (the test stub's [fakeAccount]). *)
Record AccountModel : Type :=
  { account_id : string; account_name : string;
    account_email : string; account_password : string }.

(** A thrown JavaScript error object. *)
Inductive Exception : Type :=
  | TypeError (message : string)
  | Error (message : string).

(** How an evaluation completes: normally with a value, or abruptly. *)
Inductive Completion (A : Type) : Type :=
  | Normal (a : A)
  | Throw (e : Exception).
Arguments Normal {A} a.
Arguments Throw {A} e.

(** A call seen by a spy on the collaborators. *)
Inductive Call : Type :=
  | IsValidCall (arg : JsValue)
  | AddCall (arg : AddAccountModel).

Definition is_IsValidCall (c : Call) : bool :=
  match c with IsValidCall _ => true | AddCall _ => false end.

Definition is_AddCall (c : Call) : bool :=
  match c with IsValidCall _ => false | AddCall _ => true end.

(** [obj[field]] on an object: a property the object does not have
    reads as [undefined]. *)
Definition prop (obj : gmap string JsValue) (field : string) : JsValue :=
  default JsUndefined (obj !! field).

Section SignUp.
(** The collaborators' own state: whatever a stub, a mock or a real
    implementation keeps between calls. *)
Context {W : Type}.

(** The environment a call of [handle] runs in. *)
Record Env : Type := { world : W; calls : list Call }.

(** The two injected interfaces: each method may read and change the
    collaborators' state, and may throw. *)
Record EmailValidator : Type :=
  { isValid : JsValue → W → Completion bool * W }.

Record AddAccount : Type :=
  { add : AddAccountModel → W → Completion AccountModel * W }.

Record SignUpController : Type :=
  { emailValidator : EmailValidator; addAccount : AddAccount }.

(** *** The effect monad *)

Definition Eff (A : Type) : Type := Env → Completion A * Env.

Definition ret {A} (a : A) : Eff A := λ env, (Normal a, env).

Definition throw {A} (e : Exception) : Eff A := λ env, (Throw e, env).

Definition bind {A B} (m : Eff A) (k : A → Eff B) : Eff B :=
  λ env,
    match m env with
    | (Normal a, env') => k a env'
    | (Throw e, env') => (Throw e, env')
    end.

Definition try_catch {A} (m : Eff A) (handler : Exception → Eff A) : Eff A :=
  λ env,
    match m env with
    | (Normal a, env') => (Normal a, env')
    | (Throw e, env') => handler e env'
    end.

Notation "'let!' x := m 'in' k" := (bind m (λ x, k))
  (at level 10, x name, m at level 100, k at level 200).

(** [o[field]]: reading a property of [undefined] throws a TypeError,
    reading a property an object does not have gives [undefined]. *)
Definition get_prop (o : option (gmap string JsValue)) (field : string)
  : Eff JsValue :=
  match o with
  | None => throw (TypeError ("Cannot read properties of undefined (reading '"
                                +:+ field +:+ "')"))
  | Some obj => ret (prop obj field)
  end.

(** [this.emailValidator.isValid(email)], recorded in [calls]. *)
Definition call_isValid (this : SignUpController) (arg : JsValue) : Eff bool :=
  λ env,
    let (r, w) := isValid (emailValidator this) arg (world env) in
    (r, {| world := w; calls := calls env ++ [IsValidCall arg] |}).

(** [this.addAccount.add(account)], recorded in [calls]. *)
Definition call_add (this : SignUpController) (arg : AddAccountModel)
  : Eff AccountModel :=
  λ env,
    let (r, w) := add (addAccount this) arg (world env) in
    (r, {| world := w; calls := calls env ++ [AddCall arg] |}).

(** *** [handle] *)

(** Line 17. *)
Definition requiredFields : list string :=
  ["email"; "name"; "password"; "passwordConfirmation"].

(** Lines 18-22: the [for ... of] loop with its early [return].
    [Some r] is "returned [r] from inside the loop", [None] is "the
    loop ran to its end". *)
Fixpoint check_required (httpRequest : HttpRequest) (fields : list string)
  : Eff (option HttpResponse) :=
  match fields with
  | [] => ret None
  | field :: rest =>
      let! v := get_prop (body httpRequest) field in
      if negb (truthy v)
      then ret (Some (badRequest (MissingParamError field)))
      else check_required httpRequest rest
  end.

(** Lines 17-32: the body of the [try] block.  The result is what the
    function returns: [Some r] for [return r], and [None] for falling
    off the end of the function, which in JavaScript yields
    [undefined]. *)
Definition handle_try (this : SignUpController) (httpRequest : HttpRequest)
  : Eff (option HttpResponse) :=
  let! early := check_required httpRequest requiredFields in
  match early with
  | Some response => ret (Some response)
  | None =>
      let! name := get_prop (body httpRequest) "name" in
      let! email := get_prop (body httpRequest) "email" in
      let! password := get_prop (body httpRequest) "password" in
      let! passwordConfirmation := get_prop (body httpRequest) "passwordConfirmation" in
      if negb (strict_eq password passwordConfirmation)
      then ret (Some (badRequest (InvalidParamError "passwordConfirmation")))
      else
        let! valid := call_isValid this email in
        if negb valid
        then ret (Some (badRequest (InvalidParamError "email")))
        else
          let! _ := call_add this
                 {| email := email; name := name; password := password |} in
          ret None
  end.

(** Lines 15-36. *)
Definition handle (this : SignUpController) (httpRequest : HttpRequest)
  : Eff (option HttpResponse) :=
  try_catch (handle_try this httpRequest) (λ error, ret (Some serverError)).

(** What a spy installed just before the call [handle(httpRequest)]
    has recorded when it returns. *)
Definition calls_made (this : SignUpController) (httpRequest : HttpRequest)
    (env : Env) : list Call :=
  drop (length (calls env)) (calls (snd (handle this httpRequest env))).

(** The body has every required field. *)
Definition all_present (obj : gmap string JsValue) : Prop :=
  Forall (λ f, truthy (prop obj f) = true) requiredFields.

(** A collaborator pair is deterministic when what a method returns or
    throws depends on its argument only, not on the state it runs in. *)
Definition deterministic (this : SignUpController) : Prop :=
  (∀ arg w w',
      fst (isValid (emailValidator this) arg w)
      = fst (isValid (emailValidator this) arg w'))
  ∧ (∀ arg w w',
      fst (add (addAccount this) arg w) = fst (add (addAccount this) arg w')).

End SignUp.

Arguments Env : clear implicits.
Arguments EmailValidator : clear implicits.
Arguments AddAccount : clear implicits.
Arguments SignUpController : clear implicits.

(** ** The stubs of the test suite

    The suite's collaborators keep no state of their own; the jest mock
    of the "invalid email" test answers [false] once and then falls back
    to the stub.  The collaborators' state is the number of answers the
    mock still has queued. *)

Definition makeEmailValidator : EmailValidator nat :=
  {| isValid := λ _ w, (Normal true, w) |}.

Definition fakeAccount : AccountModel :=
  {| account_id := "valid_id"; account_name := "valid_name";
     account_email := "valid_email"; account_password := "valid_password" |}.

Definition makeAddAcount : AddAccount nat :=
  {| add := λ _ w, (Normal fakeAccount, w) |}.

Definition makeEmailValidatorWithError : EmailValidator nat :=
  {| isValid := λ _ w, (Throw (Error EmptyString), w) |}.

(** [jest.spyOn(emailValidatorStub, 'isValid').mockReturnValueOnce(false)],
    once per unit of the state. *)
Definition mockIsValidOnceFalse : EmailValidator nat :=
  {| isValid := λ _ w,
       match w with
       | O => (Normal true, O)
       | S w' => (Normal false, w')
       end |}.

(** [jest.spyOn(addAccountStub, 'add').mockImplementationOnce(() => { throw new Error() })]. *)
Definition mockAddOnceThrows : AddAccount nat :=
  {| add := λ _ w,
       match w with
       | O => (Normal fakeAccount, O)
       | S w' => (Throw (Error EmptyString), w')
       end |}.

Definition makeSut : SignUpController nat :=
  {| emailValidator := makeEmailValidator; addAccount := makeAddAcount |}.

Definition fresh (w : nat) : Env nat := {| world := w; calls := [] |}.

(** The request bodies of the suite, and two more. *)
Definition body_of (fields : list (string * JsValue)) : gmap string JsValue :=
  list_to_map fields.

Definition valid_body : gmap string JsValue :=
  body_of [("email", JsString "any_email@mail.com");
           ("name", JsString "any_name");
           ("password", JsString "any_password");
           ("passwordConfirmation", JsString "any_password")].

Definition body_without_name : gmap string JsValue :=
  body_of [("email", JsString "any_email@mail.com");
           ("password", JsString "any_password");
           ("passwordConfirmation", JsString "any_password")].

Definition body_with_empty_name_and_password : gmap string JsValue :=
  body_of [("email", JsString "any_email@mail.com");
           ("name", JsString EmptyString);
           ("passwordConfirmation", JsString "any_password")].

Definition body_with_mismatch : gmap string JsValue :=
  body_of [("email", JsString "any_email@mail.com");
           ("name", JsString "any_name");
           ("password", JsString "a");
           ("passwordConfirmation", JsString "b")].

Definition any_account : AddAccountModel :=
  {| email := JsString "any_email@mail.com"; name := JsString "any_name";
     password := JsString "any_password" |}.

Definition valid_request : HttpRequest := {| body := Some valid_body |}.

(** The controller of the suite's "EmailValidator throws" test:
    [new SignUpController(makeEmailValidatorWithError(), makeAddAcount())]. *)
Definition makeSutWithValidatorError : SignUpController nat :=
  {| emailValidator := makeEmailValidatorWithError;
     addAccount := makeAddAcount |}.

(** A valid body that carries one more property. *)
Definition valid_body_with_role : gmap string JsValue :=
  <["role" := JsString "admin"]> valid_body.

(** ** The ways out of [handle]

    One constructor for each [return] of the function and for its end,
    on a request that has a body: the condition under which that exit
    is taken, and what the caller and the collaborators are left with. *)

Section Paths.
Context {W : Type}.

Inductive handle_path (this : SignUpController W)
    (obj : gmap string JsValue) (env : Env W)
  : Completion (option HttpResponse) * Env W → Prop :=
  | path_missing (pre : list string) (field : string) (post : list string) :
      requiredFields = pre ++ field :: post →
      Forall (λ f, truthy (prop obj f) = true) pre →
      truthy (prop obj field) = false →
      handle_path this obj env
        (Normal (Some (badRequest (MissingParamError field))), env)
  | path_mismatch :
      all_present obj →
      strict_eq (prop obj "password") (prop obj "passwordConfirmation") = false →
      handle_path this obj env
        (Normal (Some (badRequest (InvalidParamError "passwordConfirmation"))),
         env)
  | path_invalid_email (w1 : W) :
      all_present obj →
      strict_eq (prop obj "password") (prop obj "passwordConfirmation") = true →
      isValid (emailValidator this) (prop obj "email") (world env)
      = (Normal false, w1) →
      handle_path this obj env
        (Normal (Some (badRequest (InvalidParamError "email"))),
         {| world := w1;
            calls := calls env ++ [IsValidCall (prop obj "email")] |})
  | path_validator_throws (e : Exception) (w1 : W) :
      all_present obj →
      strict_eq (prop obj "password") (prop obj "passwordConfirmation") = true →
      isValid (emailValidator this) (prop obj "email") (world env)
      = (Throw e, w1) →
      handle_path this obj env
        (Normal (Some serverError),
         {| world := w1;
            calls := calls env ++ [IsValidCall (prop obj "email")] |})
  | path_added (w1 : W) (account : AccountModel) (w2 : W) :
      all_present obj →
      strict_eq (prop obj "password") (prop obj "passwordConfirmation") = true →
      isValid (emailValidator this) (prop obj "email") (world env)
      = (Normal true, w1) →
      add (addAccount this)
        {| email := prop obj "email"; name := prop obj "name";
           password := prop obj "password" |} w1
      = (Normal account, w2) →
      handle_path this obj env
        (Normal None,
         {| world := w2;
            calls := calls env
                     ++ [IsValidCall (prop obj "email");
                         AddCall {| email := prop obj "email";
                                    name := prop obj "name";
                                    password := prop obj "password" |}] |})
  | path_add_throws (w1 : W) (e : Exception) (w2 : W) :
      all_present obj →
      strict_eq (prop obj "password") (prop obj "passwordConfirmation") = true →
      isValid (emailValidator this) (prop obj "email") (world env)
      = (Normal true, w1) →
      add (addAccount this)
        {| email := prop obj "email"; name := prop obj "name";
           password := prop obj "password" |} w1
      = (Throw e, w2) →
      handle_path this obj env
        (Normal (Some serverError),
         {| world := w2;
            calls := calls env
                     ++ [IsValidCall (prop obj "email");
                         AddCall {| email := prop obj "email";
                                    name := prop obj "name";
                                    password := prop obj "password" |}] |}).

(** Two bodies that [handle] cannot tell apart: on each required field
    they hold the same value, or a falsy value each. *)
Definition same_for_handle (obj obj' : gmap string JsValue) : Prop :=
  Forall (λ f, prop obj f = prop obj' f
               ∨ (truthy (prop obj f) = false ∧ truthy (prop obj' f) = false))
    requiredFields.

End Paths.

(** * Properties *)

(** ** Values *)

Lemma strict_eq_spec (a b : JsValue) : strict_eq a b = true ↔ a = b.
Proof.
  destruct a as [| |x|x|x], b as [| |y|y|y]; simpl;
    split; intros H; try discriminate; try reflexivity.
  - apply Bool.eqb_prop in H. by subst.
  - injection H as ->. by destruct y.
  - apply Z.eqb_eq in H. by subst.
  - injection H as ->. apply Z.eqb_refl.
  - apply String.eqb_eq in H. by subst.
  - injection H as ->. apply String.eqb_refl.
Qed.

Lemma strict_eq_false (a b : JsValue) : strict_eq a b = false ↔ a ≠ b.
Proof.
  rewrite <- strict_eq_spec. destruct (strict_eq a b); split; congruence.
Qed.

(** Absent properties are falsy. *)
Lemma absent_falsy (obj : gmap string JsValue) (field : string) :
  obj !! field = None → truthy (prop obj field) = false.
Proof. intros H. unfold prop. by rewrite H. Qed.

Section Properties.
Context {W : Type}.
Implicit Types (this : SignUpController W) (env : Env W).
Implicit Types (obj : gmap string JsValue) (field : string).

(** ** The required-field loop *)

Lemma check_required_present obj fields env :
  Forall (λ f, truthy (prop obj f) = true) fields →
  check_required {| body := Some obj |} fields env = (Normal None, env).
Proof.
  induction 1 as [|f fs Hf _ IH]; [reflexivity|].
  simpl. unfold bind at 1. simpl. rewrite Hf. simpl. exact IH.
Qed.

Lemma check_required_missing obj pre field post env :
  Forall (λ f, truthy (prop obj f) = true) pre →
  truthy (prop obj field) = false →
  check_required {| body := Some obj |} (pre ++ field :: post) env
  = (Normal (Some (badRequest (MissingParamError field))), env).
Proof.
  intros Hpre Hfield. induction Hpre as [|f fs Hf _ IH].
  - simpl. unfold bind at 1. simpl. by rewrite Hfield.
  - simpl. unfold bind at 1. simpl. rewrite Hf. simpl. exact IH.
Qed.

Lemma check_required_undefined fields env :
  fields ≠ [] →
  ∃ e, check_required (W:=W) {| body := None |} fields env = (Throw e, env).
Proof.
  destruct fields as [|f fs]; [done|]. intros _. simpl. eauto.
Qed.

(** Every list with a falsy entry splits at its first falsy entry. *)
Lemma first_missing_split obj fields field :
  field ∈ fields → truthy (prop obj field) = false →
  ∃ pre first post,
    fields = pre ++ first :: post
    ∧ Forall (λ f, truthy (prop obj f) = true) pre
    ∧ truthy (prop obj first) = false.
Proof.
  induction fields as [|f fs IH]; intros Hin Hfalsy.
  - by apply elem_of_nil in Hin.
  - destruct (truthy (prop obj f)) eqn:Hf.
    + apply elem_of_cons in Hin as [->|Hin]; [congruence|].
      destruct (IH Hin Hfalsy) as (pre & first & post & -> & Hpre & Hfirst).
      exists (f :: pre), first, post. split; [done|]. split; [|done].
      by constructor.
    + exists [], f, fs. by repeat split.
Qed.

(** ** [handle], path by path *)

Lemma handle_missing this obj pre field post env :
  requiredFields = pre ++ field :: post →
  Forall (λ f, truthy (prop obj f) = true) pre →
  truthy (prop obj field) = false →
  handle this {| body := Some obj |} env
  = (Normal (Some (badRequest (MissingParamError field))), env).
Proof.
  intros Hsplit Hpre Hfield.
  unfold handle, try_catch, handle_try, bind.
  rewrite Hsplit, (check_required_missing _ _ _ _ _ Hpre Hfield).
  reflexivity.
Qed.

(** Past the loop and the confirmation check, [handle] is the call of
    the validator and what follows it. *)
Lemma handle_validated this obj env :
  all_present obj →
  strict_eq (prop obj "password") (prop obj "passwordConfirmation") = true →
  handle this {| body := Some obj |} env
  = try_catch
      (bind (call_isValid this (prop obj "email"))
         (λ valid,
            if negb valid
            then ret (Some (badRequest (InvalidParamError "email")))
            else bind (call_add this
                         {| email := prop obj "email";
                            name := prop obj "name";
                            password := prop obj "password" |})
                   (λ _, ret None)))
      (λ error, ret (Some serverError)) env.
Proof.
  intros Hall Heq.
  unfold handle, try_catch, handle_try. unfold bind at 1.
  rewrite (check_required_present _ _ _ Hall).
  unfold bind at 1 2 3 4. simpl. rewrite Heq. reflexivity.
Qed.

Lemma all_present_fields obj :
  all_present obj →
  truthy (prop obj "email") = true ∧ truthy (prop obj "name") = true
  ∧ truthy (prop obj "password") = true
  ∧ truthy (prop obj "passwordConfirmation") = true.
Proof.
  intros H. unfold all_present, requiredFields in H.
  repeat (apply Forall_cons in H as [? H]). done.
Qed.

(** Whatever the request and the collaborators do, [handle] completes
    normally: nothing escapes the [try]. *)
Lemma handle_never_throws this httpRequest env :
  ∃ r env', handle this httpRequest env = (Normal r, env').
Proof.
  unfold handle, try_catch.
  destruct (handle_try this httpRequest env) as [[r|e] env']; simpl; eauto.
Qed.

(** With every check passed and [add] returning, [handle] falls off
    the end of the function: the result is [undefined]. *)
Lemma handle_success_undefined this obj env w1 account w2 :
  all_present obj →
  strict_eq (prop obj "password") (prop obj "passwordConfirmation") = true →
  isValid (emailValidator this) (prop obj "email") (world env)
  = (Normal true, w1) →
  add (addAccount this)
    {| email := prop obj "email"; name := prop obj "name";
       password := prop obj "password" |} w1
  = (Normal account, w2) →
  fst (handle this {| body := Some obj |} env) = Normal None.
Proof.
  intros Hall Heq Hvalid Hadd. rewrite (handle_validated _ _ _ Hall Heq).
  unfold try_catch, bind, call_isValid, call_add. rewrite Hvalid. simpl.
  rewrite Hadd. reflexivity.
Qed.

(** ** The claims *)

(** C2. For each of the four required fields [name], [email],
    [password], [passwordConfirmation]: when that field is absent or
    falsy and the other three are present, [handle] returns status 400
    with a [MissingParamError] body naming exactly that field (and no
    collaborator is touched).  The values of the other fields and the
    collaborators' answers play no part. *)
Theorem missing_field_gives_400 this obj field env :
  field ∈ ["name"; "email"; "password"; "passwordConfirmation"] →
  truthy (prop obj field) = false →
  (∀ other, other ∈ ["name"; "email"; "password"; "passwordConfirmation"] →
            other ≠ field → truthy (prop obj other) = true) →
  handle this {| body := Some obj |} env
  = (Normal (Some {| statusCode := 400; resBody := MissingParamError field |}),
     env).
Proof.
  intros Hin Hfield Hothers.
  assert (Hfs : ∀ f, f ∈ requiredFields →
                     f ∈ ["name"; "email"; "password"; "passwordConfirmation"]).
  { intros f. unfold requiredFields. rewrite !elem_of_cons. tauto. }
  assert (Hin' : field ∈ requiredFields).
  { revert Hin. unfold requiredFields. rewrite !elem_of_cons. tauto. }
  destruct (first_missing_split obj requiredFields field Hin' Hfield)
    as (pre & first & post & Hsplit & Hpre & Hfirst).
  assert (first = field) as ->.
  { destruct (decide (first = field)) as [|Hne]; [done|].
    rewrite Hothers in Hfirst; [done| |done].
    apply Hfs. rewrite Hsplit. apply elem_of_app. right. apply elem_of_cons. by left. }
  exact (handle_missing this obj pre field post env Hsplit Hpre Hfirst).
Qed.

(** C3. When all four required fields are present and [password] is
    not strictly equal to [passwordConfirmation], [handle] returns
    status 400 with an [InvalidParamError] body naming
    [passwordConfirmation], and no call reaches the collaborators: the
    EmailValidator is not invoked. *)
Theorem password_mismatch_gives_400 this obj env :
  all_present obj →
  strict_eq (prop obj "password") (prop obj "passwordConfirmation") = false →
  fst (handle this {| body := Some obj |} env)
  = Normal (Some {| statusCode := 400;
                    resBody := InvalidParamError "passwordConfirmation" |})
  ∧ calls_made this {| body := Some obj |} env = []
  ∧ world (snd (handle this {| body := Some obj |} env)) = world env.
Proof.
  intros Hall Hneq.
  assert (handle this {| body := Some obj |} env
          = (Normal (Some (badRequest (InvalidParamError "passwordConfirmation"))),
             env)) as Hrun.
  { unfold handle, try_catch, handle_try. unfold bind at 1.
    rewrite (check_required_present _ _ _ Hall).
    unfold bind. simpl. rewrite Hneq. reflexivity. }
  unfold calls_made. rewrite Hrun. simpl.
  split; [done|]. split; [|done]. by rewrite drop_all.
Qed.

(** C4. When all four required fields are present, [password] equals
    [passwordConfirmation] and [isValid] returns [false], [handle]
    returns status 400 with an [InvalidParamError] body naming [email],
    and the one call made is [isValid] on exactly the request's
    [email]. *)
Theorem invalid_email_gives_400 this obj env :
  all_present obj →
  strict_eq (prop obj "password") (prop obj "passwordConfirmation") = true →
  fst (isValid (emailValidator this) (prop obj "email") (world env))
  = Normal false →
  fst (handle this {| body := Some obj |} env)
  = Normal (Some {| statusCode := 400; resBody := InvalidParamError "email" |})
  ∧ calls_made this {| body := Some obj |} env
    = [IsValidCall (prop obj "email")].
Proof.
  intros Hall Heq Hvalid. unfold calls_made.
  rewrite (handle_validated _ _ _ Hall Heq).
  unfold try_catch, bind, call_isValid.
  destruct (isValid _ _ _) as [r w1]. simpl in Hvalid. subst r. simpl.
  split; [done|]. by rewrite drop_app_length.
Qed.

(** C5. When the request reaches the email validation (all four
    fields present, [password] equal to [passwordConfirmation]) and
    [isValid] throws, [handle] returns status 500 with a [ServerError]
    body, and the only call made is the one of [isValid]: [add] is
    never invoked. *)
Theorem validator_throws_gives_500 this obj env e :
  all_present obj →
  strict_eq (prop obj "password") (prop obj "passwordConfirmation") = true →
  fst (isValid (emailValidator this) (prop obj "email") (world env))
  = Throw e →
  fst (handle this {| body := Some obj |} env)
  = Normal (Some {| statusCode := 500; resBody := ServerError |})
  ∧ calls_made this {| body := Some obj |} env
    = [IsValidCall (prop obj "email")]
  ∧ filter (λ c, is_AddCall c = true)
      (calls_made this {| body := Some obj |} env) = [].
Proof.
  intros Hall Heq Hvalid. unfold calls_made.
  rewrite (handle_validated _ _ _ Hall Heq).
  unfold try_catch, bind, call_isValid.
  destruct (isValid _ _ _) as [r w1]. simpl in Hvalid. subst r. simpl.
  rewrite drop_app_length. done.
Qed.

(** C6. When the request passes every validation and [add] throws,
    [handle] returns status 500 with the [ServerError] body: for every
    error [e] thrown the response is this same value, which carries
    nothing of [e]. *)
Theorem add_throws_gives_500 this obj env w1 e w2 :
  all_present obj →
  strict_eq (prop obj "password") (prop obj "passwordConfirmation") = true →
  isValid (emailValidator this) (prop obj "email") (world env)
  = (Normal true, w1) →
  add (addAccount this)
    {| email := prop obj "email"; name := prop obj "name";
       password := prop obj "password" |} w1
  = (Throw e, w2) →
  fst (handle this {| body := Some obj |} env)
  = Normal (Some {| statusCode := 500; resBody := ServerError |}).
Proof.
  intros Hall Heq Hvalid Hadd. rewrite (handle_validated _ _ _ Hall Heq).
  unfold try_catch, bind, call_isValid, call_add. rewrite Hvalid. simpl.
  rewrite Hadd. reflexivity.
Qed.

(** The calls of one run: none, the validator alone, or the validator
    and then [add]. *)
Lemma calls_made_shape this httpRequest env :
  calls_made this httpRequest env = []
  ∨ (∃ arg, calls_made this httpRequest env = [IsValidCall arg])
  ∨ (∃ arg account,
        calls_made this httpRequest env = [IsValidCall arg; AddCall account]).
Proof.
  destruct httpRequest as [[obj|]]; unfold calls_made;
    [|left; simpl; by rewrite drop_all].
  unfold handle, try_catch, handle_try, requiredFields, check_required,
    bind, call_isValid, call_add, get_prop, ret. simpl.
  repeat (destruct (truthy _); simpl; [|left; by rewrite drop_all]).
  destruct (strict_eq _ _); simpl; [|left; by rewrite drop_all].
  destruct (isValid _ _ _) as [[[|]|e] w1]; simpl.
  - destruct (add _ _ _) as [[account|e] w2]; simpl;
      right; right; do 2 eexists;
      by rewrite <- app_assoc, drop_app_length.
  - right; left. eexists. by rewrite drop_app_length.
  - right; left. eexists. by rewrite drop_app_length.
Qed.

(** C7. In every call each collaborator is invoked at most once; and
    when all four required fields are present, [password] equals
    [passwordConfirmation] and the validator returns [true], the calls
    made are [isValid(email)] and then exactly one
    [add({email, name, password})] with the request's values:
    [passwordConfirmation] is no part of the argument. *)
Theorem add_called_once_with_account this httpRequest env :
  ((length (filter (λ c, is_IsValidCall c = true)
              (calls_made this httpRequest env)) ≤ 1)%nat
   ∧ (length (filter (λ c, is_AddCall c = true)
              (calls_made this httpRequest env)) ≤ 1)%nat)
  ∧ (∀ obj,
        body httpRequest = Some obj →
        all_present obj →
        strict_eq (prop obj "password") (prop obj "passwordConfirmation")
        = true →
        fst (isValid (emailValidator this) (prop obj "email") (world env))
        = Normal true →
        calls_made this httpRequest env
        = [IsValidCall (prop obj "email");
           AddCall {| email := prop obj "email"; name := prop obj "name";
                      password := prop obj "password" |}]).
Proof.
  split.
  - destruct (calls_made_shape this httpRequest env)
      as [-> | [[arg ->] | (arg & account & ->)]]; simpl; lia.
  - intros obj Hbody Hall Heq Hvalid.
    destruct httpRequest as [o]. simpl in Hbody. subst o.
    unfold calls_made. rewrite (handle_validated _ _ _ Hall Heq).
    unfold try_catch, bind, call_isValid, call_add.
    destruct (isValid _ _ _) as [r w1]. simpl in Hvalid. subst r. simpl.
    destruct (add _ _ _) as [[account|e] w2]; simpl;
      by rewrite <- app_assoc, drop_app_length.
Qed.

(** C8. The missing-field checks run in the order [email], [name],
    [password], [passwordConfirmation] and the first failing one wins:
    when two (or more) required fields are absent or falsy, the 400
    [MissingParamError] body names the earliest such field of that
    order, every field before it being present. *)
Theorem first_missing_field_wins this obj env f g :
  f ∈ requiredFields → g ∈ requiredFields → f ≠ g →
  truthy (prop obj f) = false → truthy (prop obj g) = false →
  requiredFields = ["email"; "name"; "password"; "passwordConfirmation"]
  ∧ ∃ pre first post,
      requiredFields = pre ++ first :: post
      ∧ Forall (λ h, truthy (prop obj h) = true) pre
      ∧ truthy (prop obj first) = false
      ∧ handle this {| body := Some obj |} env
        = (Normal (Some {| statusCode := 400;
                           resBody := MissingParamError first |}), env).
Proof.
  intros Hf _ _ Hfalsy _. split; [reflexivity|].
  destruct (first_missing_split obj requiredFields f Hf Hfalsy)
    as (pre & first & post & Hsplit & Hpre & Hfirst).
  exists pre, first, post. repeat split; try done.
  exact (handle_missing this obj pre first post env Hsplit Hpre Hfirst).
Qed.

(** C9. [handle] keeps no state of its own: with collaborators that
    are deterministic functions of their arguments, the response to a
    request is the same in every environment, and in particular a
    second call with the same request, run after the first, answers
    what the first answered. *)
Theorem handle_deterministic this httpRequest :
  deterministic this →
  (∀ env env',
      fst (handle this httpRequest env) = fst (handle this httpRequest env'))
  ∧ (∀ env,
      fst (handle this httpRequest (snd (handle this httpRequest env)))
      = fst (handle this httpRequest env)).
Proof.
  intros [Hev Hadd].
  assert (Hany : ∀ env env',
             fst (handle this httpRequest env)
             = fst (handle this httpRequest env')).
  { intros env env'. destruct httpRequest as [[obj|]]; [|reflexivity].
    unfold handle, try_catch, handle_try, requiredFields, check_required,
      bind, call_isValid, call_add, get_prop, ret. simpl.
    repeat (destruct (truthy _); simpl; [|reflexivity]).
    destruct (strict_eq _ _); simpl; [|reflexivity].
    specialize (Hev (prop obj "email") (world env) (world env')).
    destruct (isValid _ _ (world env)) as [r1 w1].
    destruct (isValid _ _ (world env')) as [r1' w1'].
    simpl in Hev. subst r1'. destruct r1 as [[|]|e]; simpl; try reflexivity.
    specialize (Hadd {| email := prop obj "email"; name := prop obj "name";
                        password := prop obj "password" |} w1 w1').
    destruct (add _ _ w1) as [r2 w2]. destruct (add _ _ w1') as [r2' w2'].
    simpl in Hadd. subst r2'. by destruct r2. }
  split; [exact Hany|]. intros env. apply Hany.
Qed.

(** C10. A request whose [body] is missing altogether gets status 500
    with a [ServerError] body, not a 400: reading the first required
    field of the missing body throws inside the [try], whose [catch]
    therefore covers the required-field loop as well. *)
Theorem undefined_body_gives_500 this env :
  (∃ e, check_required (W:=W) {| body := None |} requiredFields env
        = (Throw e, env))
  ∧ handle this {| body := None |} env
    = (Normal (Some {| statusCode := 500; resBody := ServerError |}), env).
Proof. split; [by apply check_required_undefined | reflexivity]. Qed.

End Properties.

(** * The test suite's scenarios, evaluated *)

Ltac all_fields_present :=
  unfold all_present, requiredFields;
  repeat (apply Forall_cons; split; [vm_compute; reflexivity|]);
  constructor.

Lemma valid_body_all_present : all_present valid_body.
Proof. all_fields_present. Defined.

(** C1. The suite's fully valid request, handled with the suite's
    stubs: both collaborators are called and return, and [handle]
    returns [undefined], which is no [HttpResponse]. *)
Theorem handle_success_returns_undefined :
  handle makeSut valid_request (fresh 0%nat)
  = (Normal None,
     {| world := 0%nat;
        calls := [IsValidCall (JsString "any_email@mail.com");
                  AddCall any_account] |})
  ∧ ¬ ∃ response : HttpResponse,
        fst (handle makeSut valid_request (fresh 0%nat))
        = Normal (Some response).
Proof.
  assert (handle makeSut valid_request (fresh 0%nat)
          = (Normal None,
             {| world := 0%nat;
                calls := [IsValidCall (JsString "any_email@mail.com");
                          AddCall any_account] |})) as Hrun
      by (vm_compute; reflexivity).
  split; [exact Hrun|]. rewrite Hrun. simpl. intros [response H]. discriminate.
Qed.

Lemma handle_success_undefined_valid_request :
  fst (handle makeSut {| body := Some valid_body |} (fresh 0%nat)) = Normal None.
Proof.
  apply (handle_success_undefined makeSut valid_body (fresh 0%nat)
           0%nat fakeAccount 0%nat);
    [apply valid_body_all_present | reflexivity..].
Defined.

Lemma missing_field_gives_400_witness :
  handle makeSut {| body := Some body_without_name |} (fresh 0%nat)
  = (Normal (Some {| statusCode := 400; resBody := MissingParamError "name" |}),
     fresh 0%nat).
Proof.
  apply (missing_field_gives_400 makeSut body_without_name "name" (fresh 0%nat)).
  - apply elem_of_cons. by left.
  - vm_compute; reflexivity.
  - intros other Hin Hne.
    repeat (apply elem_of_cons in Hin as [->|Hin];
            [first [done | vm_compute; reflexivity]|]).
    by apply elem_of_nil in Hin.
Defined.

Lemma password_mismatch_gives_400_witness :
  fst (handle makeSut {| body := Some body_with_mismatch |} (fresh 0%nat))
  = Normal (Some {| statusCode := 400;
                    resBody := InvalidParamError "passwordConfirmation" |})
  ∧ calls_made makeSut {| body := Some body_with_mismatch |} (fresh 0%nat) = []
  ∧ world (snd (handle makeSut {| body := Some body_with_mismatch |}
                  (fresh 0%nat)))
    = world (fresh 0%nat).
Proof.
  apply (password_mismatch_gives_400 makeSut body_with_mismatch (fresh 0%nat)).
  - all_fields_present.
  - vm_compute; reflexivity.
Defined.

Lemma invalid_email_gives_400_witness :
  fst (handle {| emailValidator := mockIsValidOnceFalse;
                 addAccount := makeAddAcount |}
         {| body := Some valid_body |} (fresh 1%nat))
  = Normal (Some {| statusCode := 400; resBody := InvalidParamError "email" |})
  ∧ calls_made {| emailValidator := mockIsValidOnceFalse;
                  addAccount := makeAddAcount |}
      {| body := Some valid_body |} (fresh 1%nat)
    = [IsValidCall (prop valid_body "email")].
Proof.
  apply (invalid_email_gives_400
           {| emailValidator := mockIsValidOnceFalse;
              addAccount := makeAddAcount |} valid_body (fresh 1%nat)).
  - apply valid_body_all_present.
  - vm_compute; reflexivity.
  - reflexivity.
Defined.

Lemma validator_throws_gives_500_witness :
  fst (handle {| emailValidator := makeEmailValidatorWithError;
                 addAccount := makeAddAcount |}
         {| body := Some valid_body |} (fresh 0%nat))
  = Normal (Some {| statusCode := 500; resBody := ServerError |})
  ∧ calls_made {| emailValidator := makeEmailValidatorWithError;
                  addAccount := makeAddAcount |}
      {| body := Some valid_body |} (fresh 0%nat)
    = [IsValidCall (prop valid_body "email")]
  ∧ filter (λ c, is_AddCall c = true)
      (calls_made {| emailValidator := makeEmailValidatorWithError;
                     addAccount := makeAddAcount |}
         {| body := Some valid_body |} (fresh 0%nat)) = [].
Proof.
  apply (validator_throws_gives_500
           {| emailValidator := makeEmailValidatorWithError;
              addAccount := makeAddAcount |} valid_body (fresh 0%nat)
           (Error EmptyString)).
  - apply valid_body_all_present.
  - vm_compute; reflexivity.
  - reflexivity.
Defined.

Lemma add_throws_gives_500_witness :
  fst (handle {| emailValidator := makeEmailValidator;
                 addAccount := mockAddOnceThrows |}
         {| body := Some valid_body |} (fresh 1%nat))
  = Normal (Some {| statusCode := 500; resBody := ServerError |}).
Proof.
  apply (add_throws_gives_500
           {| emailValidator := makeEmailValidator;
              addAccount := mockAddOnceThrows |} valid_body (fresh 1%nat)
           1%nat (Error EmptyString) 0%nat).
  - apply valid_body_all_present.
  - vm_compute; reflexivity.
  - reflexivity.
  - reflexivity.
Defined.

Lemma add_called_once_with_account_witness :
  calls_made makeSut {| body := Some valid_body |} (fresh 0%nat)
  = [IsValidCall (prop valid_body "email");
     AddCall {| email := prop valid_body "email";
                name := prop valid_body "name";
                password := prop valid_body "password" |}].
Proof.
  apply (proj2 (add_called_once_with_account makeSut
                  {| body := Some valid_body |} (fresh 0%nat)) valid_body).
  - reflexivity.
  - apply valid_body_all_present.
  - vm_compute; reflexivity.
  - reflexivity.
Defined.

Lemma first_missing_field_wins_witness :
  requiredFields = ["email"; "name"; "password"; "passwordConfirmation"]
  ∧ ∃ pre first post,
      requiredFields = pre ++ first :: post
      ∧ Forall (λ h, truthy (prop body_with_empty_name_and_password h) = true)
          pre
      ∧ truthy (prop body_with_empty_name_and_password first) = false
      ∧ handle makeSut {| body := Some body_with_empty_name_and_password |}
          (fresh 0%nat)
        = (Normal (Some {| statusCode := 400;
                           resBody := MissingParamError first |}),
           fresh 0%nat).
Proof.
  apply (first_missing_field_wins makeSut body_with_empty_name_and_password
           (fresh 0%nat) "password" "name").
  - unfold requiredFields. rewrite !elem_of_cons. tauto.
  - unfold requiredFields. rewrite !elem_of_cons. tauto.
  - discriminate.
  - vm_compute; reflexivity.
  - vm_compute; reflexivity.
Defined.

Lemma makeSut_deterministic : deterministic makeSut.
Proof. split; intros; reflexivity. Defined.

Lemma handle_deterministic_witness :
  fst (handle makeSut valid_request
         (snd (handle makeSut valid_request (fresh 0%nat))))
  = fst (handle makeSut valid_request (fresh 0%nat)).
Proof.
  apply (proj2 (handle_deterministic makeSut valid_request
                  makeSut_deterministic)).
Defined.

(** The earliest missing field of [body_with_empty_name_and_password]
    in the order of the checks is [name], not [password]. *)
Example two_missing_names_the_earlier :
  handle makeSut {| body := Some body_with_empty_name_and_password |}
    (fresh 0%nat)
  = (Normal (Some {| statusCode := 400; resBody := MissingParamError "name" |}),
     fresh 0%nat).
Proof. vm_compute; reflexivity. Qed.

(** With a mock that answers [false] once, the collaborators are not
    deterministic, and two successive calls with the same request
    differ: 400 first, then the run through to [add]. *)
Example once_mock_is_not_repeatable :
  let sut := {| emailValidator := mockIsValidOnceFalse;
                addAccount := makeAddAcount |} in
  fst (handle sut valid_request (fresh 1%nat))
  = Normal (Some {| statusCode := 400; resBody := InvalidParamError "email" |})
  ∧ fst (handle sut valid_request (snd (handle sut valid_request (fresh 1%nat))))
    = Normal None.
Proof. vm_compute. split; reflexivity. Qed.


(** * Beyond the claims: every way out of [handle] *)

Section Paths_of_handle.
Context {W : Type}.
Implicit Types (this : SignUpController W) (env : Env W).
Implicit Types (obj : gmap string JsValue) (field : string).

Lemma present_or_missing obj (fields : list string) :
  Forall (λ f, truthy (prop obj f) = true) fields
  ∨ ∃ pre field post,
      fields = pre ++ field :: post
      ∧ Forall (λ f, truthy (prop obj f) = true) pre
      ∧ truthy (prop obj field) = false.
Proof.
  induction fields as [|f fs IH]; [left; constructor|].
  destruct (truthy (prop obj f)) eqn:Hf.
  - destruct IH as [IH | (pre & g & post & -> & Hpre & Hg)].
    + left. by constructor.
    + right. exists (f :: pre), g, post. split; [done|]. split; [|done].
      by constructor.
  - right. exists [], f, fs. by repeat split.
Qed.

Lemma handle_mismatch this obj env :
  all_present obj →
  strict_eq (prop obj "password") (prop obj "passwordConfirmation") = false →
  handle this {| body := Some obj |} env
  = (Normal (Some (badRequest (InvalidParamError "passwordConfirmation"))), env).
Proof.
  intros Hall Hneq. unfold handle, try_catch, handle_try. unfold bind at 1.
  rewrite (check_required_present _ _ _ Hall).
  unfold bind. simpl. rewrite Hneq. reflexivity.
Qed.

(** Every run of [handle] on a request with a body leaves by one of the
    six ways out. *)
Lemma handle_paths this obj env :
  handle_path this obj env (handle this {| body := Some obj |} env).
Proof.
  destruct (present_or_missing obj requiredFields)
    as [Hall | (pre & f & post & Hsplit & Hpre & Hf)].
  - destruct (strict_eq (prop obj "password") (prop obj "passwordConfirmation"))
      eqn:Heq.
    + rewrite (handle_validated _ _ _ Hall Heq).
      unfold try_catch, bind, call_isValid, call_add.
      destruct (isValid (emailValidator this) (prop obj "email") (world env))
        as [[[|]|e] w1] eqn:Hv; simpl.
      * destruct (add (addAccount this) _ w1) as [[account|e] w2] eqn:Ha;
          simpl; rewrite <- app_assoc; simpl.
        -- by eapply path_added.
        -- by eapply path_add_throws.
      * by eapply path_invalid_email.
      * by eapply path_validator_throws.
    + rewrite (handle_mismatch _ _ _ Hall Heq). by apply path_mismatch.
  - rewrite (handle_missing this obj pre f post env Hsplit Hpre Hf).
    by eapply path_missing.
Qed.

Lemma handle_undefined_body this env :
  handle this {| body := None |} env = (Normal (Some serverError), env).
Proof. reflexivity. Qed.

Lemma missing_field_is_required (pre : list string) field (post : list string) :
  requiredFields = pre ++ field :: post → field ∈ requiredFields.
Proof. intros ->. apply elem_of_app. right. apply elem_of_cons. by left. Qed.

Lemma not_all_present_when_missing obj (pre : list string) field
    (post : list string) :
  requiredFields = pre ++ field :: post →
  truthy (prop obj field) = false → ¬ all_present obj.
Proof.
  intros Hsplit Hf Hall. unfold all_present in Hall.
  rewrite Forall_forall in Hall.
  specialize (Hall field (missing_field_is_required _ _ _ Hsplit)). congruence.
Qed.

End Paths_of_handle.

(** Splitting on the way out taken by [handle this {| body := Some obj |} env]. *)
Ltac by_path this obj env :=
  destruct (handle_paths this obj env)
    as [pre mf post Hsplit Hpre Hmf
       | Hall Hneq
       | w1 Hall Heq Hvalid
       | e1 w1 Hall Heq Hvalid
       | w1 account1 w2 Hall Heq Hvalid Hadd
       | w1 e1 w2 Hall Heq Hvalid Hadd].

Ltac calls_done :=
  rewrite ?drop_all, ?drop_app_length in *.

Section Answers.
Context {W : Type}.
Implicit Types (this : SignUpController W) (env : Env W).
Implicit Types (obj : gmap string JsValue) (field : string).

(** X1. [handle] never lets an exception out, whatever the request and
    whatever the collaborators do, and it has five possible answers:
    [undefined], 400 with a [MissingParamError] for one of the required
    fields, 400 with an [InvalidParamError] for [passwordConfirmation]
    or for [email], and 500 with [ServerError].  No other status code
    and no other field name ever appears. *)
Theorem handle_answers this httpRequest env :
  fst (handle this httpRequest env) = Normal None
  ∨ (∃ field,
        field ∈ requiredFields
        ∧ fst (handle this httpRequest env)
          = Normal (Some {| statusCode := 400;
                            resBody := MissingParamError field |}))
  ∨ fst (handle this httpRequest env)
    = Normal (Some {| statusCode := 400;
                      resBody := InvalidParamError "passwordConfirmation" |})
  ∨ fst (handle this httpRequest env)
    = Normal (Some {| statusCode := 400; resBody := InvalidParamError "email" |})
  ∨ fst (handle this httpRequest env)
    = Normal (Some {| statusCode := 500; resBody := ServerError |}).
Proof.
  destruct httpRequest as [[obj|]]; [|by repeat right].
  by_path this obj env; simpl.
  - right; left. exists mf. split; [|done].
    by eapply missing_field_is_required.
  - by right; right; left.
  - by right; right; right; left.
  - by repeat right.
  - by left.
  - by repeat right.
Qed.

(** X2. [handle] returns [undefined] exactly on the path where nothing
    went wrong: the request has a body with all four required fields,
    [password] equals [passwordConfirmation], the validator returned
    [true] and [add], run in the state the validator left, returned
    normally.  On every other path it returns a response. *)
Theorem undefined_exactly_on_success this httpRequest env :
  fst (handle this httpRequest env) = Normal None
  ↔ ∃ obj,
      body httpRequest = Some obj
      ∧ all_present obj
      ∧ strict_eq (prop obj "password") (prop obj "passwordConfirmation") = true
      ∧ fst (isValid (emailValidator this) (prop obj "email") (world env))
        = Normal true
      ∧ ∃ account,
          fst (add (addAccount this)
                 {| email := prop obj "email"; name := prop obj "name";
                    password := prop obj "password" |}
                 (snd (isValid (emailValidator this) (prop obj "email")
                         (world env))))
          = Normal account.
Proof.
  destruct httpRequest as [[obj|]]; simpl.
  - split.
    + by_path this obj env; simpl; intros H; try discriminate.
      exists obj. rewrite Hvalid. simpl. rewrite Hadd. simpl. eauto 10.
    + intros (obj' & [= <-] & Hall' & Heq' & Hvalid' & account & Hadd').
      by_path this obj env; simpl; try reflexivity; exfalso.
      * by eapply not_all_present_when_missing.
      * congruence.
      * rewrite Hvalid in Hvalid'. discriminate.
      * rewrite Hvalid in Hvalid'. discriminate.
      * rewrite Hvalid in Hadd'. simpl in Hadd'. rewrite Hadd in Hadd'.
        discriminate.
  - split; [discriminate|]. by intros (obj' & [=] & _).
Qed.

(** X3. A [MissingParamError] answer is sound: when [handle] answers
    with a [MissingParamError] naming [field], the request has a body,
    [field] is one of the required fields and is absent or falsy in it,
    every required field checked before it is present, and neither
    collaborator was called nor their state changed. *)
Theorem missing_param_answer_sound this httpRequest env status field :
  fst (handle this httpRequest env)
  = Normal (Some {| statusCode := status; resBody := MissingParamError field |}) →
  status = 400
  ∧ snd (handle this httpRequest env) = env
  ∧ ∃ obj pre post,
      body httpRequest = Some obj
      ∧ requiredFields = pre ++ field :: post
      ∧ Forall (λ f, truthy (prop obj f) = true) pre
      ∧ truthy (prop obj field) = false.
Proof.
  destruct httpRequest as [[obj|]]; [|discriminate].
  by_path this obj env; simpl; intros [= ]; subst.
  split; [done|]. split; [done|]. by exists obj, pre, post.
Qed.

(** X4. An [InvalidParamError] answer is sound, and names only
    [passwordConfirmation] or [email]: for [passwordConfirmation] all
    four fields are present, [password] differs from
    [passwordConfirmation] and nothing was called; for [email] all four
    fields are present, the two passwords are equal and the validator
    returned [false] for the request's [email]. *)
Theorem invalid_param_answer_sound this httpRequest env status field :
  fst (handle this httpRequest env)
  = Normal (Some {| statusCode := status; resBody := InvalidParamError field |}) →
  status = 400
  ∧ ∃ obj,
      body httpRequest = Some obj
      ∧ all_present obj
      ∧ ((field = "passwordConfirmation"
          ∧ prop obj "password" ≠ prop obj "passwordConfirmation"
          ∧ snd (handle this httpRequest env) = env)
         ∨ (field = "email"
            ∧ prop obj "password" = prop obj "passwordConfirmation"
            ∧ fst (isValid (emailValidator this) (prop obj "email") (world env))
              = Normal false)).
Proof.
  destruct httpRequest as [[obj|]]; [|discriminate].
  by_path this obj env; simpl; intros [= ]; subst.
  - split; [done|]. exists obj. split; [done|]. split; [done|]. left.
    by apply strict_eq_false in Hneq.
  - split; [done|]. exists obj. split; [done|]. split; [done|]. right.
    apply strict_eq_spec in Heq. by rewrite Hvalid.
Qed.

(** X5. A 500 answer is sound: it is given only when the request has
    no body, or when the request passed the field and password checks
    and then the validator threw, or the validator returned [true] and
    [add] threw.  A request that fails a check is never answered 500. *)
Theorem server_error_answer_sound this httpRequest env response :
  fst (handle this httpRequest env) = Normal (Some response) →
  statusCode response = 500 ∨ resBody response = ServerError →
  response = {| statusCode := 500; resBody := ServerError |}
  ∧ (body httpRequest = None
     ∨ ∃ obj,
         body httpRequest = Some obj
         ∧ all_present obj
         ∧ prop obj "password" = prop obj "passwordConfirmation"
         ∧ ((∃ e, fst (isValid (emailValidator this) (prop obj "email")
                         (world env)) = Throw e)
            ∨ (fst (isValid (emailValidator this) (prop obj "email")
                      (world env)) = Normal true
               ∧ ∃ e,
                   fst (add (addAccount this)
                          {| email := prop obj "email"; name := prop obj "name";
                             password := prop obj "password" |}
                          (snd (isValid (emailValidator this) (prop obj "email")
                                  (world env))))
                   = Throw e))).
Proof.
  destruct httpRequest as [[obj|]].
  - by_path this obj env; simpl; intros [= <-]; simpl;
      (intros [?|?]; try discriminate); (split; [done|]); right; exists obj;
      (split; [done|]); (split; [done|]);
      apply strict_eq_spec in Heq; (split; [done|]);
      rewrite Hvalid; simpl; try rewrite Hadd; simpl; eauto.
  - simpl. intros [= <-] _. split; [done|]. by left.
Qed.

(** X6. [add] is reached only through every check: whenever a run of
    [handle] calls [add], the request has all four required fields,
    [password] equals [passwordConfirmation], and the validator returned
    [true] for the request's [email]; the account handed over carries
    the request's [email], [name] and [password], none of which is
    missing, empty or otherwise falsy. *)
Theorem add_only_after_every_check this httpRequest env account :
  AddCall account ∈ calls_made this httpRequest env →
  ∃ obj,
    body httpRequest = Some obj
    ∧ all_present obj
    ∧ prop obj "password" = prop obj "passwordConfirmation"
    ∧ fst (isValid (emailValidator this) (prop obj "email") (world env))
      = Normal true
    ∧ account = {| email := prop obj "email"; name := prop obj "name";
                   password := prop obj "password" |}
    ∧ truthy (email account) = true
    ∧ truthy (name account) = true
    ∧ truthy (password account) = true.
Proof.
  unfold calls_made. destruct httpRequest as [[obj|]].
  - by_path this obj env; simpl; calls_done; intros Hin;
      try (by apply elem_of_nil in Hin);
      repeat (apply elem_of_cons in Hin as [Hin|Hin]; try discriminate);
      try (by apply elem_of_nil in Hin);
      injection Hin as ->; exists obj;
      destruct (all_present_fields obj Hall) as (He & Hn & Hp & _);
      apply strict_eq_spec in Heq; rewrite Hvalid; simpl; done.
  - simpl. calls_done. intros Hin. by apply elem_of_nil in Hin.
Qed.

(** X7. The validator is consulted only on complete requests: whenever
    a run of [handle] calls [isValid], the request has all four required
    fields, [password] equals [passwordConfirmation], and the argument
    is the request's [email], which is not falsy. *)
Theorem validator_only_on_complete_requests this httpRequest env arg :
  IsValidCall arg ∈ calls_made this httpRequest env →
  ∃ obj,
    body httpRequest = Some obj
    ∧ all_present obj
    ∧ prop obj "password" = prop obj "passwordConfirmation"
    ∧ arg = prop obj "email"
    ∧ truthy arg = true.
Proof.
  unfold calls_made. destruct httpRequest as [[obj|]].
  - by_path this obj env; simpl; calls_done; intros Hin;
      try (by apply elem_of_nil in Hin);
      repeat (apply elem_of_cons in Hin as [Hin|Hin]; try discriminate);
      try (by apply elem_of_nil in Hin);
      injection Hin as ->; exists obj;
      destruct (all_present_fields obj Hall) as (He & _);
      apply strict_eq_spec in Heq; done.
  - simpl. calls_done. intros Hin. by apply elem_of_nil in Hin.
Qed.

(** [handle] reads the body through the four required fields only, and
    a falsy field only through its being falsy. *)
Lemma handle_ext this obj obj' env :
  same_for_handle obj obj' →
  handle this {| body := Some obj |} env
  = handle this {| body := Some obj' |} env.
Proof.
  intros H. unfold same_for_handle, requiredFields in H.
  apply Forall_cons in H as [He H]. apply Forall_cons in H as [Hn H].
  apply Forall_cons in H as [Hp H]. apply Forall_cons in H as [Hc _].
  unfold handle, try_catch, handle_try, requiredFields, check_required,
    bind, get_prop, ret, body.
  destruct He as [<- | [-> ->]]; [|reflexivity].
  destruct (truthy (prop obj "email")); [|reflexivity]. cbn [negb].
  destruct Hn as [<- | [-> ->]]; [|reflexivity].
  destruct (truthy (prop obj "name")); [|reflexivity]. cbn [negb].
  destruct Hp as [<- | [-> ->]]; [|reflexivity].
  destruct (truthy (prop obj "password")); [|reflexivity]. cbn [negb].
  destruct Hc as [<- | [-> ->]]; reflexivity.
Qed.

(** X8. Properties of the body other than the four required ones play
    no part: two bodies that agree on [email], [name], [password] and
    [passwordConfirmation] get the same answer, cause the same calls and
    leave the same state, whatever else they carry. *)
Theorem other_properties_ignored this obj obj' env :
  (∀ field, field ∈ requiredFields → prop obj field = prop obj' field) →
  handle this {| body := Some obj |} env
  = handle this {| body := Some obj' |} env.
Proof.
  intros H. apply handle_ext. unfold same_for_handle.
  apply Forall_forall. intros f Hf. left. by apply H.
Qed.

(** X9. A property that is present with a falsy value ([undefined],
    [null], [false], [0] or the empty string) is handled exactly as if
    the body did not have it. *)
Theorem falsy_is_as_absent this obj field (v : JsValue) env :
  truthy v = false →
  handle this {| body := Some (<[field := v]> obj) |} env
  = handle this {| body := Some (delete field obj) |} env.
Proof.
  intros Hv. apply handle_ext. unfold same_for_handle.
  apply Forall_forall. intros f _. unfold prop.
  destruct (decide (field = f)) as [->|Hne].
  - right. by rewrite lookup_insert_eq, lookup_delete_eq.
  - left. by rewrite lookup_insert_ne, lookup_delete_ne.
Qed.

(** X10. The required-field loop is a search for the first falsy
    field: over any list of field names and any body, it returns the
    400 [MissingParamError] response for the first name of the list
    whose property is falsy, runs to its end when there is none, and
    touches neither collaborator. *)
Theorem check_required_is_find obj (fields : list string) env :
  check_required {| body := Some obj |} fields env
  = (Normal (option_map (λ f, badRequest (MissingParamError f))
               (List.find (λ f, negb (truthy (prop obj f))) fields)),
     env).
Proof.
  induction fields as [|f fs IH]; [reflexivity|].
  simpl. unfold bind at 1. simpl.
  destruct (truthy (prop obj f)); simpl; [exact IH | reflexivity].
Qed.

End Answers.

(** * Beyond the claims: the suite's controllers on every request *)

(** X11. The controller that [makeSut] builds, whose validator always
    returns [true] and whose [add] always returns the fake account,
    answers a request with a body by [undefined] exactly when the four
    fields are present and the passwords equal, and by a 400 that is not
    about [email] otherwise: it never answers 500, and the stubs keep
    no state. *)
Theorem makeSut_on_every_body (obj : gmap string JsValue) (env : Env nat) :
  (fst (handle makeSut {| body := Some obj |} env) = Normal None
   ↔ all_present obj
     ∧ prop obj "password" = prop obj "passwordConfirmation")
  ∧ (∀ response,
        fst (handle makeSut {| body := Some obj |} env) = Normal (Some response) →
        statusCode response = 400
        ∧ resBody response ≠ InvalidParamError "email"
        ∧ calls_made makeSut {| body := Some obj |} env = [])
  ∧ world (snd (handle makeSut {| body := Some obj |} env)) = world env.
Proof.
  unfold calls_made.
  by_path makeSut obj env; simpl in *; calls_done;
    try discriminate;
    try (injection Hvalid as <-); try (injection Hadd as <-).
  - split; [|split; [|done]].
    + split; [discriminate|]. intros [Hall _].
      by destruct (not_all_present_when_missing obj pre mf post).
    + by intros response [= <-].
  - split; [|split; [|done]].
    + split; [discriminate|]. intros [_ Heq].
      apply strict_eq_false in Hneq. done.
    + by intros response [= <-].
  - split; [|split; [|done]].
    + split; [|done]. intros _. split; [done|]. by apply strict_eq_spec.
    + discriminate.
Qed.

(** X12. The controller of the "EmailValidator throws" test, built on
    [makeEmailValidatorWithError], answers a request with a body by 500
    exactly when the four fields are present and the passwords equal;
    it never returns [undefined] and never calls [add]. *)
Theorem throwing_validator_on_every_body (obj : gmap string JsValue)
    (env : Env nat) :
  (fst (handle makeSutWithValidatorError {| body := Some obj |} env)
   = Normal (Some {| statusCode := 500; resBody := ServerError |})
   ↔ all_present obj
     ∧ prop obj "password" = prop obj "passwordConfirmation")
  ∧ fst (handle makeSutWithValidatorError {| body := Some obj |} env)
    ≠ Normal None
  ∧ ∀ account,
      AddCall account
      ∉ calls_made makeSutWithValidatorError {| body := Some obj |} env.
Proof.
  unfold calls_made.
  by_path makeSutWithValidatorError obj env; simpl in *; calls_done;
    try discriminate.
  - split; [|split; [done|]].
    + split; [discriminate|]. intros [Hall _].
      by destruct (not_all_present_when_missing obj pre mf post).
    + intros account Hin. by apply elem_of_nil in Hin.
  - split; [|split; [done|]].
    + split; [discriminate|]. intros [_ Heq].
      apply strict_eq_false in Hneq. done.
    + intros account Hin. by apply elem_of_nil in Hin.
  - split; [|split; [done|]].
    + split; [|done]. intros _. split; [done|]. by apply strict_eq_spec.
    + intros account Hin. apply elem_of_cons in Hin as [Hin|Hin];
        [discriminate | by apply elem_of_nil in Hin].
Qed.

(** * The theorems beyond the claims, at the suite's requests *)

Lemma valid_request_calls :
  calls_made makeSut valid_request (fresh 0%nat)
  = [IsValidCall (JsString "any_email@mail.com"); AddCall any_account].
Proof. vm_compute; reflexivity. Defined.

Lemma undefined_exactly_on_success_witness :
  fst (handle makeSut valid_request (fresh 0%nat)) = Normal None.
Proof.
  apply (proj2 (undefined_exactly_on_success makeSut valid_request (fresh 0%nat))).
  exists valid_body. split; [reflexivity|].
  split; [apply valid_body_all_present|].
  split; [vm_compute; reflexivity|]. split; [reflexivity|].
  exists fakeAccount. reflexivity.
Defined.

Lemma missing_param_answer_sound_witness :
  400 = 400
  ∧ snd (handle makeSut {| body := Some body_without_name |} (fresh 0%nat))
    = fresh 0%nat
  ∧ ∃ obj pre post,
      body {| body := Some body_without_name |} = Some obj
      ∧ requiredFields = pre ++ "name" :: post
      ∧ Forall (λ f, truthy (prop obj f) = true) pre
      ∧ truthy (prop obj "name") = false.
Proof.
  apply (missing_param_answer_sound makeSut {| body := Some body_without_name |}
           (fresh 0%nat) 400 "name").
  vm_compute; reflexivity.
Defined.

Lemma invalid_param_answer_sound_witness :
  400 = 400
  ∧ ∃ obj,
      body {| body := Some body_with_mismatch |} = Some obj
      ∧ all_present obj
      ∧ (("passwordConfirmation" = "passwordConfirmation"
          ∧ prop obj "password" ≠ prop obj "passwordConfirmation"
          ∧ snd (handle makeSut {| body := Some body_with_mismatch |}
                   (fresh 0%nat)) = fresh 0%nat)
         ∨ ("passwordConfirmation" = "email"
            ∧ prop obj "password" = prop obj "passwordConfirmation"
            ∧ fst (isValid (emailValidator makeSut) (prop obj "email")
                     (world (fresh 0%nat)))
              = Normal false)).
Proof.
  apply (invalid_param_answer_sound makeSut {| body := Some body_with_mismatch |}
           (fresh 0%nat) 400 "passwordConfirmation").
  vm_compute; reflexivity.
Defined.

Lemma server_error_answer_sound_witness :
  {| statusCode := 500; resBody := ServerError |}
  = {| statusCode := 500; resBody := ServerError |}
  ∧ (body valid_request = None
     ∨ ∃ obj,
         body valid_request = Some obj
         ∧ all_present obj
         ∧ prop obj "password" = prop obj "passwordConfirmation"
         ∧ ((∃ e, fst (isValid (emailValidator makeSutWithValidatorError)
                         (prop obj "email") (world (fresh 0%nat))) = Throw e)
            ∨ (fst (isValid (emailValidator makeSutWithValidatorError)
                      (prop obj "email") (world (fresh 0%nat))) = Normal true
               ∧ ∃ e,
                   fst (add (addAccount makeSutWithValidatorError)
                          {| email := prop obj "email"; name := prop obj "name";
                             password := prop obj "password" |}
                          (snd (isValid (emailValidator makeSutWithValidatorError)
                                  (prop obj "email") (world (fresh 0%nat)))))
                   = Throw e))).
Proof.
  apply (server_error_answer_sound makeSutWithValidatorError valid_request
           (fresh 0%nat) {| statusCode := 500; resBody := ServerError |}).
  - vm_compute; reflexivity.
  - left. reflexivity.
Defined.

Lemma add_only_after_every_check_witness :
  ∃ obj,
    body valid_request = Some obj
    ∧ all_present obj
    ∧ prop obj "password" = prop obj "passwordConfirmation"
    ∧ fst (isValid (emailValidator makeSut) (prop obj "email")
             (world (fresh 0%nat)))
      = Normal true
    ∧ any_account = {| email := prop obj "email"; name := prop obj "name";
                       password := prop obj "password" |}
    ∧ truthy (email any_account) = true
    ∧ truthy (name any_account) = true
    ∧ truthy (password any_account) = true.
Proof.
  apply (add_only_after_every_check makeSut valid_request (fresh 0%nat)
           any_account).
  rewrite valid_request_calls. apply elem_of_cons. right.
  apply elem_of_cons. left. reflexivity.
Defined.

Lemma validator_only_on_complete_requests_witness :
  ∃ obj,
    body valid_request = Some obj
    ∧ all_present obj
    ∧ prop obj "password" = prop obj "passwordConfirmation"
    ∧ JsString "any_email@mail.com" = prop obj "email"
    ∧ truthy (JsString "any_email@mail.com") = true.
Proof.
  apply (validator_only_on_complete_requests makeSut valid_request
           (fresh 0%nat) (JsString "any_email@mail.com")).
  rewrite valid_request_calls. apply elem_of_cons. left. reflexivity.
Defined.

Lemma other_properties_ignored_witness :
  handle makeSut {| body := Some valid_body_with_role |} (fresh 0%nat)
  = handle makeSut {| body := Some valid_body |} (fresh 0%nat).
Proof.
  apply (other_properties_ignored makeSut valid_body_with_role valid_body
           (fresh 0%nat)).
  intros field Hin. unfold requiredFields in Hin.
  repeat (apply elem_of_cons in Hin as [->|Hin]; [vm_compute; reflexivity|]).
  by apply elem_of_nil in Hin.
Defined.

Lemma falsy_is_as_absent_witness :
  handle makeSut
    {| body := Some (<["password" := JsString EmptyString]> valid_body) |}
    (fresh 0%nat)
  = handle makeSut {| body := Some (delete "password" valid_body) |}
      (fresh 0%nat).
Proof.
  apply (falsy_is_as_absent makeSut valid_body "password"
           (JsString EmptyString) (fresh 0%nat)).
  reflexivity.
Defined.

Lemma makeSut_on_every_body_witness :
  statusCode {| statusCode := 400; resBody := MissingParamError "name" |} = 400
  ∧ resBody {| statusCode := 400; resBody := MissingParamError "name" |}
    ≠ InvalidParamError "email"
  ∧ calls_made makeSut {| body := Some body_without_name |} (fresh 0%nat) = [].
Proof.
  apply (proj1 (proj2 (makeSut_on_every_body body_without_name (fresh 0%nat)))).
  vm_compute; reflexivity.
Defined.

(** What the "falsy is as absent" theorem gives on the suite's valid
    body once its password is emptied: the password is reported
    missing. *)
Example emptied_password_is_missing :
  handle makeSut
    {| body := Some (<["password" := JsString EmptyString]> valid_body) |}
    (fresh 0%nat)
  = (Normal (Some {| statusCode := 400;
                     resBody := MissingParamError "password" |}),
     fresh 0%nat).
Proof. vm_compute; reflexivity. Qed.

Lemma throwing_validator_on_every_body_witness :
  fst (handle makeSutWithValidatorError {| body := Some valid_body |}
         (fresh 0%nat))
  = Normal (Some {| statusCode := 500; resBody := ServerError |}).
Proof.
  apply (proj2 (proj1 (throwing_validator_on_every_body valid_body
                         (fresh 0%nat)))).
  split; [apply valid_body_all_present | vm_compute; reflexivity].
Defined.
